(** * NeuralGrid SDK demo client: [SDK_DEMO_PROJECT/client.py]

    A shallow embedding of the demo script's [main] and the properties of
    its request / pay / retry flow.

    The script talks to the world through two effects, [print] and
    [requests.post].  Both are modelled with explicit state passing: the
    world records every printed line and every POST that was issued, and the
    network is an oracle that answers the n-th POST either with a response
    or by raising an exception of the [requests] library. *)

From Stdlib Require Import ZArith NArith String Ascii List Bool Lia.
Import ListNotations.
Local Open Scope Z_scope.
#[local] Set Warnings "-register-all".

(* ------------------------------------------------------------------ *)
(** * Python strings *)
(* ------------------------------------------------------------------ *)

(** A Python [str] is a sequence of Unicode code points; slicing and [len]
    count code points, not bytes. *)
Definition str := list N.

(** Source literals are written as UTF-8 text and decoded to code points.
    [acc] holds the bits of a partially read code point and [need] the number
    of continuation bytes still expected. *)
Fixpoint utf8_decode (bs : list N) (acc : N) (need : nat) : str :=
  match bs with
  | [] => []
  | b :: bs' =>
      match need with
      | O =>
          if (b <? 128)%N then b :: utf8_decode bs' 0%N 0%nat
          else if (b <? 224)%N then utf8_decode bs' (b mod 32)%N 1%nat
          else if (b <? 240)%N then utf8_decode bs' (b mod 16)%N 2%nat
          else utf8_decode bs' (b mod 8)%N 3%nat
      | S O => (acc * 64 + b mod 64)%N :: utf8_decode bs' 0%N 0%nat
      | S n => utf8_decode bs' (acc * 64 + b mod 64)%N n
      end
  end.

Definition lit (s : string) : str :=
  utf8_decode (map N_of_ascii (list_ascii_of_string s)) 0%N 0%nat.

Fixpoint str_eqb (a b : str) : bool :=
  match a, b with
  | [], [] => true
  | x :: a', y :: b' => (x =? y)%N && str_eqb a' b'
  | _, _ => false
  end.

(** ["c" * n] for a one-character string. *)
Definition str_times (c : str) (n : nat) : str := concat (repeat c n).

(** The line feed of the ["\n..."] literals. *)
Definition nl : str := [10%N].

(* ------------------------------------------------------------------ *)
(** * Python values decoded from JSON *)
(* ------------------------------------------------------------------ *)

(** What [json.loads] can produce.  A [dict] keeps insertion order, so it is
    an association list; a [float] is carried as its binary64 bit pattern
    (no arithmetic is ever done on it). *)
Inductive pyval : Type :=
| PNone
| PBool (b : bool)
| PInt (z : Z)
| PFloat (bits : Z)
| PStr (s : str)
| PList (l : list pyval)
| PDict (d : list (str * pyval)).

(** Exception classes that can arise in [main]: those of [requests]
    (with its class hierarchy, see [isinstance_ConnectionError]) and the
    built-in ones raised by attribute access and subscripting.
    [DictSliceError] is the class raised by [d[:n]] on a dict [d]: the
    interpreter looks the slice object up as a key, which raises [TypeError]
    (unhashable slice) before Python 3.12 and [KeyError] from 3.12 on.  The
    script pins no version, so the class is not resolved further; in either
    version it is no [ConnectionError]. *)
Inductive exn : Type :=
| ConnectionError
| ProxyError
| SSLError
| ConnectTimeout
| ReadTimeout
| TooManyRedirects
| ChunkedEncodingError
| JSONDecodeError
| AttributeError
| TypeError
| DictSliceError.

(** [except requests.exceptions.ConnectionError] matches the class and its
    subclasses [ProxyError], [SSLError] and [ConnectTimeout]. *)
Definition isinstance_ConnectionError (e : exn) : bool :=
  match e with
  | ConnectionError | ProxyError | SSLError | ConnectTimeout => true
  | _ => false
  end.

(** Lookup in a dict's items. *)
Fixpoint dict_lookup (k : str) (d : list (str * pyval)) : option pyval :=
  match d with
  | [] => None
  | (k', v) :: d' => if str_eqb k k' then Some v else dict_lookup k d'
  end.

(** [obj.get(key, default)]: only a dict has the method; on any other
    decoded value the attribute access raises [AttributeError]. *)
Definition py_get (obj : pyval) (key : str) (default : pyval) : exn + pyval :=
  match obj with
  | PDict d =>
      match dict_lookup key d with
      | Some v => inr v
      | None => inr default
      end
  | _ => inl AttributeError
  end.

(** [obj[:n]]: a prefix of a string or of a list.  [None], booleans and
    numbers are not subscriptable ([TypeError]); a dict raises
    [DictSliceError]. *)
Definition py_slice_to (obj : pyval) (n : nat) : exn + pyval :=
  match obj with
  | PStr s => inr (PStr (firstn n s))
  | PList l => inr (PList (firstn n l))
  | PDict _ => inl DictSliceError
  | _ => inl TypeError
  end.

(* ------------------------------------------------------------------ *)
(** * Printed output *)
(* ------------------------------------------------------------------ *)

(** One [print] call writes the concatenation of its pieces.  A string is
    printed as it is; the text of [str(v)] for any other value is kept
    symbolic as [Repr v]. *)
Inductive piece : Type :=
| Text (s : str)
| Repr (v : pyval).

Definition line := list piece.

Definition py_str (v : pyval) : piece :=
  match v with
  | PStr s => Text s
  | _ => Repr v
  end.

(* ------------------------------------------------------------------ *)
(** * HTTP requests and responses *)
(* ------------------------------------------------------------------ *)

(** The arguments of one [requests.post] call. *)
Record Request : Type := mkRequest {
  req_url : str;
  req_json : pyval;
  req_headers : list (str * str)
}.

(** What [main] observes of a [requests.Response]: the status, the decoded
    body text, and the outcome of [.json()] ([None] when the body is not
    JSON and the call raises [JSONDecodeError]). *)
Record Response : Type := mkResponse {
  status_code : Z;
  text : str;
  body_json : option pyval
}.

(** [Response.ok]: [raise_for_status] raises for a status in 400..599 and
    [ok] is true for every other status. *)
Definition ok (r : Response) : bool :=
  negb ((400 <=? status_code r) && (status_code r <? 600)).

(** The network: the answer to the [n]-th POST issued (counting from 0). *)
Definition Transport := nat -> Request -> exn + Response.

Record World : Type := mkWorld {
  sent : list Request;
  stdout : list line
}.

Definition world0 : World := mkWorld [] [].

(* ------------------------------------------------------------------ *)
(** * The monad of the script: state, network oracle and exceptions *)
(* ------------------------------------------------------------------ *)

Definition M (A : Type) : Type := Transport -> World -> (exn + A) * World.

Definition ret {A} (a : A) : M A := fun _ w => (inr a, w).

Definition raise {A} (e : exn) : M A := fun _ w => (inl e, w).

Definition bind {A B} (m : M A) (k : A -> M B) : M B :=
  fun tr w =>
    match m tr w with
    | (inr a, w') => k a tr w'
    | (inl e, w') => (inl e, w')
    end.

Notation "x <- m ;; k" := (bind m (fun x => k))
  (at level 61, m at next level, right associativity).
Notation "m ;; k" := (bind m (fun _ => k))
  (at level 61, right associativity).

Definition lift {A} (r : exn + A) : M A :=
  match r with
  | inr a => ret a
  | inl e => raise e
  end.

(** [try: body except <class>: handler]. *)
Definition try_except {A} (body : M A) (catches : exn -> bool)
    (handler : M A) : M A :=
  fun tr w =>
    match body tr w with
    | (inl e, w') => if catches e then handler tr w' else (inl e, w')
    | r => r
    end.

Definition print (l : line) : M unit :=
  fun _ w => (inr tt, mkWorld (sent w) (stdout w ++ [l])).

(** [requests.post(url, json=..., headers=...)]: the request is recorded,
    then the network answers or raises. *)
Definition requests_post (url : str) (json : pyval)
    (headers : list (str * str)) : M Response :=
  fun tr w =>
    let q := mkRequest url json headers in
    (tr (length (sent w)) q, mkWorld (sent w ++ [q]) (stdout w)).

(** [response.json()]. *)
Definition Response_json (r : Response) : M pyval :=
  match body_json r with
  | Some v => ret v
  | None => raise JSONDecodeError
  end.

(* ------------------------------------------------------------------ *)
(** * The script *)
(* ------------------------------------------------------------------ *)

(** Configuration *)
Definition GATEWAY_URL : str :=
  lit "https://neural-grid-iota.vercel.app/api/agent/execute".
Definition AGENT_ID : str := lit "atlas-ai".

(** 1. Define the Task *)
Definition payload : pyval :=
  PDict
    [ (lit "agentId", PStr AGENT_ID);
      (lit "taskType", PStr (lit "text-generation"));
      (lit "parameters",
        PDict
          [ (lit "prompt",
             PStr (lit "Explain the importance of autonomous agents in 3 bullet points.")) ]) ].

Definition dummy_tx_hash : str := lit "0x" ++ str_times (lit "b") 64.

Definition headers : list (str * str) :=
  [ (lit "PAYMENT-SIGNATURE", dummy_tx_hash) ].

Definition rule : line := [Text (str_times (lit "-") 50)].

(** Lines 29-56: the branch taken on a 402 response. *)
Definition handle_402 (response : Response) : M unit :=
  data <- Response_json response ;;
  print [Text (nl ++ lit "⚠️  402 PAYMENT REQUIRED")] ;;
  amount <- lift (py_get data (lit "amount") PNone) ;;
  print [Text (lit "💰 Price: "); py_str amount; Text (lit " Octas")] ;;
  recipient <- lift (py_get data (lit "recipient") PNone) ;;
  prefix <- lift (py_slice_to recipient 10) ;;
  print [Text (lit "📫 Pay To: "); py_str prefix; Text (lit "...")] ;;
  (* 4. "Sign" Transaction (Simulated) *)
  print [Text (nl ++ lit "🔐 Signing transaction with wallet...")] ;;
  print [Text (lit "💳 TX Hash generated: ");
         Text (firstn 10 dummy_tx_hash); Text (lit "...")] ;;
  (* 5. Retry with Payment Header *)
  print [Text (nl ++ lit "🔄 Retrying with Payment Proof...")] ;;
  final_response <- requests_post GATEWAY_URL payload headers ;;
  if ok final_response then
    result <- Response_json final_response ;;
    print [Text (nl ++ lit "✅ SUCCESS! Agent Executed.")] ;;
    print rule ;;
    print [Text (lit "🤖 Agent Output:" ++ nl)] ;;
    inner <- lift (py_get result (lit "result") (PDict [])) ;;
    output <- lift (py_get inner (lit "response") result) ;;
    print [py_str output] ;;
    print rule
  else
    print [Text (lit "❌ Execution Failed: "); Text (text final_response)].

(** Lines 24-61: the body of the [try]. *)
Definition try_body : M unit :=
  (* 2. Initial Request *)
  print [Text (lit "📡 Sending initial request...")] ;;
  response <- requests_post GATEWAY_URL payload [] ;;
  (* 3. Handle 402 Payment Required *)
  if status_code response =? 402 then
    handle_402 response
  else if ok response then
    body <- Response_json response ;;
    print [Text (lit "✅ Success (No payment needed):"); Text (lit " ");
           py_str body]
  else
    print [Text (lit "❌ Unexpected Error: ");
           py_str (PInt (status_code response))].

Definition main : M unit :=
  print [Text (lit "🚀 Starting Aether SDK Demo (Python)...")] ;;
  print [Text (lit "🎯 Targeting Agent: "); Text AGENT_ID] ;;
  print rule ;;
  try_except try_body isinstance_ConnectionError
    (print [Text (lit "❌ Connection Error. Is the server running at localhost:3000?")]).

(** One run of the script against a network. *)
Definition run (tr : Transport) : (exn + unit) * World := main tr world0.

Definition outcome (tr : Transport) : exn + unit := fst (run tr).
Definition requests_issued (tr : Transport) : list Request := sent (snd (run tr)).
Definition printed (tr : Transport) : list line := stdout (snd (run tr)).

(* ------------------------------------------------------------------ *)
(** * Vocabulary of the flow *)
(* ------------------------------------------------------------------ *)

(** The two POSTs of lines 26 and 46. *)
Definition initial_request : Request := mkRequest GATEWAY_URL payload [].
Definition retry_request : Request := mkRequest GATEWAY_URL payload headers.

(** Lines 10-12 and 25. *)
Definition banner : list line :=
  [ [Text (lit "🚀 Starting Aether SDK Demo (Python)...")];
    [Text (lit "🎯 Targeting Agent: "); Text AGENT_ID];
    rule;
    [Text (lit "📡 Sending initial request...")] ].

(** Lines 31-33, 36, 38 and 41: what the 402 branch prints before it
    retries, for the amount [a] and the recipient prefix [p]. *)
Definition challenge_report (a p : pyval) : list line :=
  [ [Text (nl ++ lit "⚠️  402 PAYMENT REQUIRED")];
    [Text (lit "💰 Price: "); py_str a; Text (lit " Octas")];
    [Text (lit "📫 Pay To: "); py_str p; Text (lit "...")];
    [Text (nl ++ lit "🔐 Signing transaction with wallet...")];
    [Text (lit "💳 TX Hash generated: "); Text (firstn 10 dummy_tx_hash);
     Text (lit "...")];
    [Text (nl ++ lit "🔄 Retrying with Payment Proof...")] ].

(** The reports of the terminal states. *)
Definition report_AgentResult (v : pyval) : list line :=
  [ [Text (nl ++ lit "✅ SUCCESS! Agent Executed.")];
    rule;
    [Text (lit "🤖 Agent Output:" ++ nl)];
    [py_str v];
    rule ].

Definition report_AgentResult_direct (v : pyval) : line :=
  [Text (lit "✅ Success (No payment needed):"); Text (lit " "); py_str v].

Definition report_ExecutionError (diagnostic : str) : line :=
  [Text (lit "❌ Execution Failed: "); Text diagnostic].

Definition report_UnexpectedStatusError (status : Z) : line :=
  [Text (lit "❌ Unexpected Error: "); Repr (PInt status)].

Definition report_ConnectionError : line :=
  [Text (lit "❌ Connection Error. Is the server running at localhost:3000?")].

(** A 2xx status. *)
Definition is_2xx (s : Z) : bool := (200 <=? s) && (s <? 300).

(** The value line 53 prints for a decoded retry body whose [result] field,
    when there is one, is an object: [result.response] when present, else
    the whole body. *)
Definition nested_result (body : list (str * pyval)) : pyval :=
  match dict_lookup (lit "result") body with
  | Some (PDict inner) =>
      match dict_lookup (lit "response") inner with
      | Some v => v
      | None => PDict body
      end
  | _ => PDict body
  end.

(** The header value of a request, if it carries the header. *)
Fixpoint header_value (name : str) (hs : list (str * str)) : option str :=
  match hs with
  | [] => None
  | (n, v) :: hs' => if str_eqb name n then Some v else header_value name hs'
  end.

(** ** The 402 branch in two phases

    [challenge] is what lines 30-33 compute from the 402 response: the
    amount and the recipient prefix to display, or the exception that ends
    the branch together with the lines printed before it.  [after_retry] is
    what lines 48-56 do with the answer to the retry.  [handle_402_eq] shows
    that the branch is exactly these two phases around the retry POST. *)
Definition challenge (r : Response) : exn * list line + pyval * pyval :=
  let l402 : line := [Text (nl ++ lit "⚠️  402 PAYMENT REQUIRED")] in
  let price (a : pyval) : line :=
    [Text (lit "💰 Price: "); py_str a; Text (lit " Octas")] in
  match body_json r with
  | None => inl (JSONDecodeError, [])
  | Some data =>
      match py_get data (lit "amount") PNone with
      | inl e => inl (e, [l402])
      | inr a =>
          match py_get data (lit "recipient") PNone with
          | inl e => inl (e, [l402; price a])
          | inr recipient =>
              match py_slice_to recipient 10 with
              | inl e => inl (e, [l402; price a])
              | inr p => inr (a, p)
              end
          end
      end
  end.

Definition after_retry (answer : exn + Response) : (exn + unit) * list line :=
  let opening : list line :=
    [ [Text (nl ++ lit "✅ SUCCESS! Agent Executed.")];
      rule;
      [Text (lit "🤖 Agent Output:" ++ nl)] ] in
  match answer with
  | inl e => (inl e, [])
  | inr final_response =>
      if ok final_response then
        match body_json final_response with
        | None => (inl JSONDecodeError, [])
        | Some result =>
            match py_get result (lit "result") (PDict []) with
            | inl e => (inl e, opening)
            | inr inner =>
                match py_get inner (lit "response") result with
                | inl e => (inl e, opening)
                | inr output => (inr tt, report_AgentResult output)
                end
            end
        end
      else (inr tt, [report_ExecutionError (text final_response)])
  end.

(** ** Bodies the 402 branch can handle *)

(** A value line 33 can slice. *)
Definition sliceable (v : pyval) : bool :=
  match v with
  | PStr _ | PList _ => true
  | _ => false
  end.

(** A 402 whose body is a JSON object with a sliceable [recipient]. *)
Definition challenge_well_formed (r : Response) : bool :=
  match body_json r with
  | Some (PDict d) =>
      match dict_lookup (lit "recipient") d with
      | Some v => sliceable v
      | None => false
      end
  | _ => false
  end.

(** A decoded success body line 53 can read: a JSON object whose [result]
    field, when there is one, is an object too. *)
Definition result_well_formed (body : pyval) : bool :=
  match body with
  | PDict d =>
      match dict_lookup (lit "result") d with
      | Some (PDict _) | None => true
      | Some _ => false
      end
  | _ => false
  end.

(** What line 32 shows as the price: the [amount] field, or [None]. *)
Definition displayed_amount (d : list (str * pyval)) : pyval :=
  match dict_lookup (lit "amount") d with
  | Some v => v
  | None => PNone
  end.

(* ------------------------------------------------------------------ *)
(** * Test networks *)
(* ------------------------------------------------------------------ *)

(** A scripted server: the n-th POST gets the n-th answer; once the script
    is used up the connection is refused. *)
Definition serve (answers : list (exn + Response)) : Transport :=
  fun n _ => nth n answers (inl ConnectionError).

(** The 402 of the spec's example, [{amount: 100, recipient: "0xABCDEF1234567890"}]. *)
Definition challenge_body : pyval :=
  PDict [ (lit "amount", PInt 100);
          (lit "recipient", PStr (lit "0xABCDEF1234567890")) ].

(** Body texts of the test responses are written with ['] standing for the
    double quote of JSON. *)
Definition json_text (s : string) : str :=
  map (fun c => if (c =? 39)%N then 34%N else c) (lit s).

Definition r402 : Response :=
  mkResponse 402
    (json_text "{'amount': 100, 'recipient': '0xABCDEF1234567890'}")
    (Some challenge_body).

(** A 402 that names no recipient. *)
Definition r402_no_recipient : Response :=
  mkResponse 402 (json_text "{'amount': 100}")
    (Some (PDict [ (lit "amount", PInt 100) ])).

(** Successful answers: the nested shape, a flat object, and an object
    whose [result] is a plain string. *)
Definition nested_body : pyval :=
  PDict [ (lit "result", PDict [ (lit "response", PStr (lit "Agents act.")) ]) ].

Definition r200_nested : Response :=
  mkResponse 200 (json_text "{'result': {'response': 'Agents act.'}}")
    (Some nested_body).

Definition flat_body : pyval := PDict [ (lit "status", PStr (lit "done")) ].

Definition r200_flat : Response :=
  mkResponse 200 (json_text "{'status': 'done'}") (Some flat_body).

Definition string_result_body : pyval :=
  PDict [ (lit "result", PStr (lit "done")) ].

Definition r200_string_result : Response :=
  mkResponse 200 (json_text "{'result': 'done'}") (Some string_result_body).

(** A 200 whose body is not JSON. *)
Definition r200_html : Response :=
  mkResponse 200 (lit "<html>OK</html>") None.

(** A 300 (Multiple Choices) with a JSON body. *)
Definition r300 : Response :=
  mkResponse 300 (json_text "{'choices': []}")
    (Some (PDict [ (lit "choices", PList []) ])).

(** Failures with a plain-text diagnostic. *)
Definition r500 : Response :=
  mkResponse 500 (lit "Internal Server Error") None.

Definition r402_again : Response :=
  mkResponse 402 (json_text "{'error': 'payment not verified'}")
    (Some (PDict [ (lit "error", PStr (lit "payment not verified")) ])).

(** A second 402 challenge, with another price and another payee. *)
Definition r402_other : Response :=
  mkResponse 402
    (json_text "{'amount': 7, 'recipient': '0x0000000000000000000000000000dead'}")
    (Some (PDict [ (lit "amount", PInt 7);
                   (lit "recipient",
                    PStr (lit "0x0000000000000000000000000000dead")) ])).

(** More answers: a 402 whose body is not JSON, one whose body is a JSON
    array, and challenges with a null recipient, without an amount, and with
    a recipient shorter than the displayed prefix. *)
Definition r402_text : Response :=
  mkResponse 402 (lit "Payment Required") None.

Definition r402_array : Response :=
  mkResponse 402 (json_text "['pay']") (Some (PList [PStr (lit "pay")])).

Definition r402_null_recipient : Response :=
  mkResponse 402 (json_text "{'amount': 100, 'recipient': null}")
    (Some (PDict [ (lit "amount", PInt 100); (lit "recipient", PNone) ])).

Definition r402_no_amount : Response :=
  mkResponse 402 (json_text "{'recipient': '0xABCDEF1234567890'}")
    (Some (PDict [ (lit "recipient", PStr (lit "0xABCDEF1234567890")) ])).


(** A 200 whose body is a JSON array. *)
Definition r200_array : Response :=
  mkResponse 200 (json_text "[1, 2]") (Some (PList [PInt 1; PInt 2])).

(** Lines 50-52: what the success branch prints before it reads the
    result. *)
Definition success_opening : list line :=
  [ [Text (nl ++ lit "✅ SUCCESS! Agent Executed.")];
    rule;
    [Text (lit "🤖 Agent Output:" ++ nl)] ].

(** The world when the [try] of line 23 is entered, and the exception, if
    any, with which the [try] block ends before a handler is looked for. *)
Definition world_before_try : World :=
  mkWorld []
    [ [Text (lit "🚀 Starting Aether SDK Demo (Python)...")];
      [Text (lit "🎯 Targeting Agent: "); Text AGENT_ID];
      rule ].

Definition raised_in_try (tr : Transport) : option exn :=
  match fst (try_body tr world_before_try) with
  | inl e => Some e
  | inr _ => None
  end.

(* ------------------------------------------------------------------ *)
(** * Stepping through the script *)
(* ------------------------------------------------------------------ *)

Section Stepping.
Context {A B : Type}.
Variables (tr : Transport) (w : World).

Lemma bind_ret (a : A) (k : A -> M B) : (x <- ret a ;; k x) tr w = k a tr w.
Proof. reflexivity. Qed.

Lemma bind_raise (e : exn) (k : A -> M B) :
  (x <- raise e ;; k x) tr w = (inl e, w).
Proof. reflexivity. Qed.

Lemma bind_lift (r : exn + A) (k : A -> M B) :
  (x <- lift r ;; k x) tr w =
    match r with
    | inr a => k a tr w
    | inl e => (inl e, w)
    end.
Proof. destruct r; reflexivity. Qed.

Lemma bind_print (l : line) (k : M B) :
  (print l ;; k) tr w = k tr (mkWorld (sent w) (stdout w ++ [l])).
Proof. reflexivity. Qed.

Lemma bind_requests_post (url : str) (json : pyval) (hs : list (str * str))
    (k : Response -> M B) :
  (r <- requests_post url json hs ;; k r) tr w =
    let q := mkRequest url json hs in
    let w' := mkWorld (sent w ++ [q]) (stdout w) in
    match tr (List.length (sent w)) q with
    | inr r => k r tr w'
    | inl e => (inl e, w')
    end.
Proof.
  unfold bind, requests_post.
  destruct (tr (List.length (sent w)) _); reflexivity.
Qed.

Lemma bind_Response_json (r : Response) (k : pyval -> M B) :
  (v <- Response_json r ;; k v) tr w =
    match body_json r with
    | Some v => k v tr w
    | None => (inl JSONDecodeError, w)
    end.
Proof. unfold bind, Response_json. destruct (body_json r); reflexivity. Qed.
End Stepping.

Lemma print_last (l : line) (tr : Transport) (w : World) :
  print l tr w = (inr tt, mkWorld (sent w) (stdout w ++ [l])).
Proof. reflexivity. Qed.

(** One step of the script, and the projections of the world it leaves. *)
Ltac step :=
  first
    [ rewrite bind_print
    | rewrite bind_requests_post
    | rewrite bind_Response_json
    | rewrite bind_lift
    | rewrite print_last ];
  cbn [sent stdout List.length List.app].

Lemma run_first_raises (tr : Transport) (e : exn) :
  tr 0%nat initial_request = inl e ->
  run tr =
    if isinstance_ConnectionError e
    then (inr tt, mkWorld [initial_request] (banner ++ [report_ConnectionError]))
    else (inl e, mkWorld [initial_request] banner).
Proof.
  intros H. unfold run, main, world0. do 3 step.
  unfold try_except, try_body. do 2 step.
  fold initial_request. rewrite H.
  destruct (isinstance_ConnectionError e); reflexivity.
Qed.

(** Closes a goal that holds up to the grouping of the printed lines. *)
Ltac regroup :=
  cbv beta iota zeta; rewrite ?app_nil_r, <- ?app_assoc; reflexivity.

Lemma handle_402_eq (r : Response) (tr : Transport) (w : World) :
  handle_402 r tr w =
    match challenge r with
    | inl (e, ls) => (inl e, mkWorld (sent w) (stdout w ++ ls))
    | inr (a, p) =>
        let (res, ls) := after_retry (tr (List.length (sent w)) retry_request) in
        (res, mkWorld (sent w ++ [retry_request])
                (stdout w ++ challenge_report a p ++ ls))
    end.
Proof.
  assert (Hw : forall w0 : World, w0 = mkWorld (sent w0) (stdout w0 ++ []))
    by (intros [? ?]; cbn [sent stdout]; now rewrite app_nil_r).
  unfold handle_402, challenge, after_retry, challenge_report. step.
  destruct (body_json r) as [data|]; cbv beta iota zeta; [|now rewrite <- Hw].
  do 2 step.
  destruct (py_get data (lit "amount") PNone) as [e|a]; [reflexivity|].
  do 2 step.
  destruct (py_get data (lit "recipient") PNone) as [e|rc]; [regroup|].
  step.
  destruct (py_slice_to rc 10) as [e|p]; [regroup|].
  do 5 step. fold retry_request.
  destruct (tr (List.length (sent w)) retry_request) as [e|r2]; [regroup|].
  destruct (ok r2); [|step; regroup].
  step.
  destruct (body_json r2) as [res|]; [|regroup].
  do 4 step.
  destruct (py_get res (lit "result") (PDict [])) as [e|inner]; [regroup|].
  step.
  destruct (py_get inner (lit "response") res) as [e|out]; [regroup|].
  do 2 step. regroup.
Qed.

(** The exceptions of the first phase are never connection errors. *)
Lemma challenge_not_ConnectionError (r : Response) (e : exn) (ls : list line) :
  challenge r = inl (e, ls) -> isinstance_ConnectionError e = false.
Proof.
  unfold challenge, py_get, py_slice_to.
  destruct (body_json r) as [[| | | | |l|d]|];
    try (intros [= <- _]; reflexivity).
  destruct (dict_lookup (lit "amount") d);
    destruct (dict_lookup (lit "recipient") d) as [[]|];
    intros [= <- _]; reflexivity.
Qed.

(** ** The whole run, by the answer to the first POST *)
Lemma run_first_response (tr : Transport) (r : Response) :
  tr 0%nat initial_request = inr r ->
  run tr =
    if status_code r =? 402 then
      match challenge r with
      | inl (e, ls) => (inl e, mkWorld [initial_request] (banner ++ ls))
      | inr (a, p) =>
          let w (ls : list line) :=
            mkWorld [initial_request; retry_request]
              (banner ++ challenge_report a p ++ ls) in
          match after_retry (tr 1%nat retry_request) with
          | (inl e, ls) =>
              if isinstance_ConnectionError e
              then (inr tt, w (ls ++ [report_ConnectionError]))
              else (inl e, w ls)
          | (inr u, ls) => (inr u, w ls)
          end
      end
    else if ok r then
      match body_json r with
      | Some v =>
          (inr tt, mkWorld [initial_request]
                     (banner ++ [report_AgentResult_direct v]))
      | None => (inl JSONDecodeError, mkWorld [initial_request] banner)
      end
    else
      (inr tt, mkWorld [initial_request]
                 (banner ++ [report_UnexpectedStatusError (status_code r)])).
Proof.
  intros H. unfold run, main, world0. do 3 step.
  unfold try_except, try_body. do 2 step.
  fold initial_request. rewrite H.
  destruct (status_code r =? 402).
  - rewrite handle_402_eq. cbn [sent stdout List.length List.app].
    destruct (challenge r) as [[e ls]|[a p]] eqn:Hc.
    + now rewrite (challenge_not_ConnectionError r e ls Hc).
    + destruct (after_retry (tr 1%nat retry_request)) as [[e|u] ls];
        [destruct (isinstance_ConnectionError e)|]; regroup.
  - destruct (ok r).
    + step. destruct (body_json r); [step|]; reflexivity.
    + reflexivity.
Qed.

(** Either one POST is issued or two, and they are the two of the script. *)
Lemma requests_issued_cases (tr : Transport) :
  requests_issued tr = [initial_request] \/
  requests_issued tr = [initial_request; retry_request].
Proof.
  unfold requests_issued.
  destruct (tr 0%nat initial_request) as [e|r] eqn:H0.
  - rewrite (run_first_raises tr e H0).
    destruct (isinstance_ConnectionError e); now left.
  - rewrite (run_first_response tr r H0).
    destruct (status_code r =? 402).
    + destruct (challenge r) as [[e ls]|[a p]]; [now left|].
      cbv zeta.
      destruct (after_retry (tr 1%nat retry_request)) as [[e|u] ls];
        [destruct (isinstance_ConnectionError e)|]; now right.
    + destruct (ok r); [destruct (body_json r)|]; now left.
Qed.

(** The retry is issued exactly when the first answer is a 402 whose
    challenge can be displayed. *)
Lemma retry_issued (tr : Transport) (q : Request) :
  nth_error (requests_issued tr) 1 = Some q ->
  q = retry_request /\
  exists r a p,
    tr 0%nat initial_request = inr r /\ status_code r = 402 /\
    challenge r = inr (a, p).
Proof.
  unfold requests_issued.
  destruct (tr 0%nat initial_request) as [e|r] eqn:H0.
  - rewrite (run_first_raises tr e H0).
    destruct (isinstance_ConnectionError e); discriminate.
  - rewrite (run_first_response tr r H0).
    destruct (status_code r =? 402) eqn:Hs.
    + destruct (challenge r) as [[e ls]|[a p]] eqn:Hc; [discriminate|].
      cbv zeta. intros Hq. split.
      * destruct (after_retry (tr 1%nat retry_request)) as [[e|u] ls];
          [destruct (isinstance_ConnectionError e)|];
          cbn in Hq; congruence.
      * exists r, a, p. apply Z.eqb_eq in Hs. auto.
    + destruct (ok r); [destruct (body_json r)|]; discriminate.
Qed.

Lemma challenge_well_formed_reaches_retry (r : Response) :
  challenge_well_formed r = true -> exists a p, challenge r = inr (a, p).
Proof.
  unfold challenge_well_formed, challenge, py_get.
  destruct (body_json r) as [[| | | | | |d]|]; try discriminate.
  destruct (dict_lookup (lit "recipient") d) as [v|]; [|discriminate].
  destruct (dict_lookup (lit "amount") d); destruct v; try discriminate;
    intros _; cbn [py_slice_to]; eauto.
Qed.

Lemma challenge_reaches_retry_well_formed (r : Response) (a p : pyval) :
  challenge r = inr (a, p) -> challenge_well_formed r = true.
Proof.
  unfold challenge_well_formed, challenge, py_get.
  destruct (body_json r) as [[| | | | | |d]|]; try discriminate.
  destruct (dict_lookup (lit "amount") d);
    destruct (dict_lookup (lit "recipient") d) as [[]|];
    cbn [py_slice_to sliceable]; congruence.
Qed.

Lemma after_retry_well_formed (r2 : Response) (d : list (str * pyval)) :
  ok r2 = true ->
  body_json r2 = Some (PDict d) ->
  result_well_formed (PDict d) = true ->
  after_retry (inr r2) = (inr tt, report_AgentResult (nested_result d)).
Proof.
  intros Hok Hb Hw. unfold after_retry. rewrite Hok, Hb.
  unfold result_well_formed in Hw. unfold nested_result, py_get.
  destruct (dict_lookup (lit "result") d) as [[| | | | | |inner]|];
    try discriminate; cbn [dict_lookup]; [|reflexivity].
  destruct (dict_lookup (lit "response") inner); reflexivity.
Qed.

Lemma is_2xx_ok (r : Response) : is_2xx (status_code r) = true -> ok r = true.
Proof.
  unfold is_2xx, ok. intros H. apply andb_true_iff in H as [_ H].
  apply Z.ltb_lt in H. apply negb_true_iff, andb_false_iff. left.
  apply Z.leb_gt. lia.
Qed.

Lemma error_status_not_ok (r : Response) :
  400 <= status_code r < 600 -> ok r = false.
Proof.
  unfold ok. intros H. apply negb_false_iff, andb_true_iff. split.
  - apply Z.leb_le. lia.
  - apply Z.ltb_lt. lia.
Qed.

(* ------------------------------------------------------------------ *)
(** * Properties of the flow *)
(* ------------------------------------------------------------------ *)

(** The script returns nothing; a terminal state of the flow is the report
    it prints ([report_AgentResult], [report_ExecutionError], ...), and a
    fault is an exception that leaves [main] ([outcome] is [inl]). *)

(** ** Connection failure on the first request *)

(** C7: when the first POST raises a connection error, the script reports
    the connection error, returns normally, and has issued that one POST
    only. *)
Theorem C7_first_connection_failure (tr : Transport) (e : exn) :
  tr 0%nat initial_request = inl e ->
  isinstance_ConnectionError e = true ->
  outcome tr = inr tt /\
  requests_issued tr = [initial_request] /\
  printed tr = banner ++ [report_ConnectionError].
Proof.
  intros H He. unfold outcome, requests_issued, printed.
  rewrite (run_first_raises tr e H), He. repeat split.
Qed.

Lemma C7_witness :
  outcome (serve []) = inr tt /\
  requests_issued (serve []) = [initial_request] /\
  printed (serve []) = banner ++ [report_ConnectionError].
Proof.
  apply (C7_first_connection_failure (serve []) ConnectionError);
    reflexivity.
Defined.

(** ** A successful first answer *)

(** C6, as stated, fails: a 200 first answer whose body is not JSON is a
    successful answer that is not a 402, yet no body is returned: line 59
    calls [response.json()], which raises [JSONDecodeError], and nothing is
    printed after the banner. *)
Lemma C6_counterexample :
  is_2xx (status_code r200_html) = true /\
  status_code r200_html <> 402 /\
  outcome (serve [inr r200_html]) = inl JSONDecodeError /\
  printed (serve [inr r200_html]) = banner.
Proof.
  unfold outcome, printed.
  rewrite (run_first_response _ r200_html eq_refl).
  repeat split. discriminate.
Qed.

(** C6, amended: a 2xx first answer whose body is JSON and decodes to [v]
    is reported with [v] itself, whatever its shape, after a single POST. *)
Theorem C6_direct_success (tr : Transport) (r : Response) (v : pyval) :
  tr 0%nat initial_request = inr r ->
  is_2xx (status_code r) = true ->
  body_json r = Some v ->
  outcome tr = inr tt /\
  requests_issued tr = [initial_request] /\
  printed tr = banner ++ [report_AgentResult_direct v].
Proof.
  intros H Hs Hv. unfold outcome, requests_issued, printed.
  rewrite (run_first_response tr r H).
  pose proof Hs as Hs'. unfold is_2xx in Hs. apply andb_true_iff in Hs as [Hlo Hhi].
  apply Z.leb_le in Hlo. apply Z.ltb_lt in Hhi.
  replace (status_code r =? 402) with false by (symmetry; apply Z.eqb_neq; lia).
  rewrite (is_2xx_ok r Hs'), Hv. repeat split.
Qed.

Lemma C6_witness :
  outcome (serve [inr r200_nested]) = inr tt /\
  requests_issued (serve [inr r200_nested]) = [initial_request] /\
  printed (serve [inr r200_nested]) =
    banner ++ [report_AgentResult_direct nested_body].
Proof.
  apply (C6_direct_success (serve [inr r200_nested]) r200_nested nested_body);
    reflexivity.
Defined.

(** ** Any other status *)

(** C5, as stated, fails: a first answer with status 300 is neither 2xx nor
    402, yet [Response.ok] holds for it and the script reports a success. *)
Lemma C5_counterexample :
  is_2xx (status_code r300) = false /\
  status_code r300 <> 402 /\
  printed (serve [inr r300]) <>
    banner ++ [report_UnexpectedStatusError (status_code r300)] /\
  printed (serve [inr r300]) =
    banner ++ [report_AgentResult_direct (PDict [ (lit "choices", PList []) ])].
Proof.
  repeat split; try (vm_compute; discriminate).
Qed.

(** C5, amended: a first answer with a client or server error status
    (400..599) other than 402 is reported as an unexpected status carrying
    that status, and no retry is issued. *)
Theorem C5_unexpected_status (tr : Transport) (r : Response) :
  tr 0%nat initial_request = inr r ->
  400 <= status_code r < 600 ->
  status_code r <> 402 ->
  outcome tr = inr tt /\
  requests_issued tr = [initial_request] /\
  printed tr = banner ++ [report_UnexpectedStatusError (status_code r)].
Proof.
  intros H Hs Hn. unfold outcome, requests_issued, printed.
  rewrite (run_first_response tr r H).
  replace (status_code r =? 402) with false by (symmetry; now apply Z.eqb_neq).
  rewrite (error_status_not_ok r Hs). repeat split.
Qed.

Lemma C5_witness :
  outcome (serve [inr r500]) = inr tt /\
  requests_issued (serve [inr r500]) = [initial_request] /\
  printed (serve [inr r500]) = banner ++ [report_UnexpectedStatusError 500].
Proof.
  apply (C5_unexpected_status (serve [inr r500]) r500).
  - reflexivity.
  - cbn. lia.
  - cbn. lia.
Defined.

(** ** Payment required, then the retry *)

(** The run once the challenge has been displayed: both POSTs are issued and
    what follows depends on the answer to the retry alone. *)
Lemma run_after_challenge (tr : Transport) (r : Response) (a p : pyval) :
  tr 0%nat initial_request = inr r ->
  status_code r = 402 ->
  challenge r = inr (a, p) ->
  run tr =
    let w (ls : list line) :=
      mkWorld [initial_request; retry_request]
        (banner ++ challenge_report a p ++ ls) in
    match after_retry (tr 1%nat retry_request) with
    | (inl e, ls) =>
        if isinstance_ConnectionError e
        then (inr tt, w (ls ++ [report_ConnectionError]))
        else (inl e, w ls)
    | (inr u, ls) => (inr u, w ls)
    end.
Proof.
  intros H Hs Hc. rewrite (run_first_response tr r H), Hs, Hc. reflexivity.
Qed.

(** C1, as stated, fails: after a well-formed 402, a 200 retry answer whose
    body is [{"result": "done"}] has no [result.response], yet the whole body
    is not printed: line 53 calls [.get] on the string and [AttributeError]
    leaves [main]. *)
Lemma C1_counterexample :
  let tr := serve [inr r402; inr r200_string_result] in
  status_code r402 = 402 /\
  is_2xx (status_code r200_string_result) = true /\
  body_json r200_string_result = Some string_result_body /\
  outcome tr = inl AttributeError /\
  ~ In [py_str string_result_body] (printed tr).
Proof.
  cbv zeta. repeat split.
  vm_compute. intuition discriminate.
Qed.

(** C1, amended: when the 402 body is a JSON object with a string (or list)
    recipient and the 2xx retry body is a JSON object whose [result], if
    present, is an object, exactly two POSTs are issued, the second with the
    body of the first plus the [PAYMENT-SIGNATURE] header, and the agent
    output printed is [result.response] when present, else the whole retry
    body. *)
Theorem C1_paid_retry_success (tr : Transport) (r1 r2 : Response)
    (d : list (str * pyval)) :
  tr 0%nat initial_request = inr r1 ->
  status_code r1 = 402 ->
  challenge_well_formed r1 = true ->
  tr 1%nat retry_request = inr r2 ->
  is_2xx (status_code r2) = true ->
  body_json r2 = Some (PDict d) ->
  result_well_formed (PDict d) = true ->
  outcome tr = inr tt /\
  (exists q1 q2,
     requests_issued tr = [q1; q2] /\
     req_url q2 = req_url q1 /\
     req_json q2 = req_json q1 /\
     req_headers q1 = [] /\
     req_headers q2 = [(lit "PAYMENT-SIGNATURE", dummy_tx_hash)]) /\
  (exists a p,
     printed tr =
       banner ++ challenge_report a p ++ report_AgentResult (nested_result d)).
Proof.
  intros H1 Hs Hc H2 Hok Hb Hw.
  destruct (challenge_well_formed_reaches_retry r1 Hc) as (a & p & Hch).
  unfold outcome, requests_issued, printed.
  rewrite (run_after_challenge tr r1 a p H1 Hs Hch), H2.
  rewrite (after_retry_well_formed r2 d (is_2xx_ok r2 Hok) Hb Hw).
  cbv zeta. cbn [fst snd sent stdout]. split; [reflexivity|]. split.
  - exists initial_request, retry_request.
    unfold initial_request, retry_request, headers.
    cbn [req_url req_json req_headers]. repeat split.
  - exists a, p. reflexivity.
Qed.

Lemma C1_witness :
  let tr := serve [inr r402; inr r200_nested] in
  outcome tr = inr tt /\
  (exists q1 q2,
     requests_issued tr = [q1; q2] /\
     req_url q2 = req_url q1 /\
     req_json q2 = req_json q1 /\
     req_headers q1 = [] /\
     req_headers q2 = [(lit "PAYMENT-SIGNATURE", dummy_tx_hash)]) /\
  (exists a p,
     printed tr =
       banner ++ challenge_report a p ++
       report_AgentResult (PStr (lit "Agents act."))).
Proof.
  cbv zeta.
  apply (C1_paid_retry_success (serve [inr r402; inr r200_nested])
           r402 r200_nested
           [ (lit "result", PDict [ (lit "response", PStr (lit "Agents act.")) ]) ]);
    reflexivity.
Defined.

(** C4, as stated, fails: after a well-formed 402, a retry answered with
    status 300 is not 2xx, yet [Response.ok] holds for it and the script
    reports a success instead of an execution failure. *)
Lemma C4_counterexample :
  let tr := serve [inr r402; inr r300] in
  status_code r402 = 402 /\
  is_2xx (status_code r300) = false /\
  ~ In (report_ExecutionError (text r300)) (printed tr) /\
  In [Text (nl ++ lit "✅ SUCCESS! Agent Executed.")] (printed tr).
Proof.
  cbv zeta. repeat split.
  - vm_compute. intuition discriminate.
  - vm_compute. intuition.
Qed.

(** C4, amended: when the handling of the 402 reaches the retry (its body
    is a JSON object with a string or list recipient) and the retry is
    answered with a client or server error status (400..599, a second 402
    included), the script reports an execution failure carrying the raw
    body text of the retry answer, and the two POSTs are all it issues. *)
Theorem C4_paid_retry_failure (tr : Transport) (r1 r2 : Response) :
  tr 0%nat initial_request = inr r1 ->
  status_code r1 = 402 ->
  challenge_well_formed r1 = true ->
  tr 1%nat retry_request = inr r2 ->
  400 <= status_code r2 < 600 ->
  outcome tr = inr tt /\
  requests_issued tr = [initial_request; retry_request] /\
  (exists a p,
     printed tr =
       banner ++ challenge_report a p ++ [report_ExecutionError (text r2)]).
Proof.
  intros H1 Hs Hc H2 Herr.
  destruct (challenge_well_formed_reaches_retry r1 Hc) as (a & p & Hch).
  unfold outcome, requests_issued, printed.
  rewrite (run_after_challenge tr r1 a p H1 Hs Hch), H2.
  unfold after_retry. rewrite (error_status_not_ok r2 Herr).
  cbv zeta. cbn [fst snd sent stdout]. repeat split.
  exists a, p. reflexivity.
Qed.

Lemma C4_witness :
  let tr := serve [inr r402; inr r402_again; inr r200_nested] in
  outcome tr = inr tt /\
  requests_issued tr = [initial_request; retry_request] /\
  (exists a p,
     printed tr =
       banner ++ challenge_report a p ++
       [report_ExecutionError (text r402_again)]).
Proof.
  cbv zeta.
  apply (C4_paid_retry_failure
           (serve [inr r402; inr r402_again; inr r200_nested])
           r402 r402_again); try reflexivity.
  cbn. lia.
Defined.

(** ** The challenge as displayed *)

Lemma challenge_of_object (r : Response) (d : list (str * pyval))
    (recipient p : pyval) :
  body_json r = Some (PDict d) ->
  dict_lookup (lit "recipient") d = Some recipient ->
  py_slice_to recipient 10 = inr p ->
  challenge r = inr (displayed_amount d, p).
Proof.
  intros Hb Hr Hp. unfold challenge, py_get, displayed_amount.
  rewrite Hb, Hr, Hp.
  destruct (dict_lookup (lit "amount") d); reflexivity.
Qed.

(** A missing [amount] alone is tolerated: [None] is displayed and the
    branch goes on to the retry. *)
Lemma missing_amount_tolerated (r : Response) (d : list (str * pyval))
    (recipient p : pyval) :
  body_json r = Some (PDict d) ->
  dict_lookup (lit "amount") d = None ->
  dict_lookup (lit "recipient") d = Some recipient ->
  py_slice_to recipient 10 = inr p ->
  challenge r = inr (PNone, p).
Proof.
  intros Hb Ha Hr Hp. rewrite (challenge_of_object r d recipient p Hb Hr Hp).
  unfold displayed_amount. now rewrite Ha.
Qed.

(** A missing [recipient] is not: [None[:10]] raises [TypeError]. *)
Lemma missing_recipient_raises (r : Response) (d : list (str * pyval)) :
  body_json r = Some (PDict d) ->
  dict_lookup (lit "recipient") d = None ->
  exists ls, challenge r = inl (TypeError, ls).
Proof.
  intros Hb Hr. unfold challenge, py_get. rewrite Hb, Hr.
  destruct (dict_lookup (lit "amount") d); cbn [py_slice_to]; eauto.
Qed.

(** C2: on a 402 whose body has an amount but no recipient, the script does
    not go on to the payment proof and the retry: slicing the absent
    recipient raises [TypeError], which leaves [main] after one POST and the
    price line. *)
Theorem C2_missing_recipient_crashes :
  let tr := serve [inr r402_no_recipient; inr r200_nested] in
  outcome tr = inl TypeError /\
  requests_issued tr = [initial_request] /\
  printed tr =
    banner ++
    [ [Text (nl ++ lit "⚠️  402 PAYMENT REQUIRED")];
      [Text (lit "💰 Price: "); Repr (PInt 100); Text (lit " Octas")] ].
Proof.
  cbv zeta. unfold outcome, requests_issued, printed.
  rewrite (run_first_response _ r402_no_recipient eq_refl).
  repeat split.
Qed.

(** C8: when the 402 body is an object whose recipient is a string, the
    "Pay To" line (the seventh line printed) shows exactly the first 10
    characters of that string. *)
Theorem C8_recipient_prefix (tr : Transport) (r : Response)
    (d : list (str * pyval)) (s : str) :
  tr 0%nat initial_request = inr r ->
  status_code r = 402 ->
  body_json r = Some (PDict d) ->
  dict_lookup (lit "recipient") d = Some (PStr s) ->
  nth_error (printed tr) 6 =
    Some [Text (lit "📫 Pay To: "); Text (firstn 10 s); Text (lit "...")].
Proof.
  intros H Hs Hb Hr.
  pose proof (challenge_of_object r d (PStr s) (PStr (firstn 10 s)) Hb Hr eq_refl)
    as Hc.
  unfold printed. rewrite (run_after_challenge tr r _ _ H Hs Hc). cbv zeta.
  destruct (after_retry (tr 1%nat retry_request)) as [[e|u] ls];
    [destruct (isinstance_ConnectionError e)|]; reflexivity.
Qed.

Lemma C8_witness :
  nth_error (printed (serve [inr r402; inr r200_nested])) 6 =
    Some [Text (lit "📫 Pay To: "); Text (lit "0xABCDEF12"); Text (lit "...")].
Proof.
  apply (C8_recipient_prefix (serve [inr r402; inr r200_nested]) r402
           [ (lit "amount", PInt 100);
             (lit "recipient", PStr (lit "0xABCDEF1234567890")) ]
           (lit "0xABCDEF1234567890"));
    reflexivity.
Defined.

(** ** The payment proof *)

Lemma dummy_tx_hash_value :
  dummy_tx_hash =
    lit "0xbbbbbbbbbbbbbbbbbbbbbbbbbbbbbbbbbbbbbbbbbbbbbbbbbbbbbbbbbbbbbbbb".
Proof. vm_compute. reflexivity. Qed.

Lemma payment_signature_of_request (tr : Transport) (q : Request) (v : str) :
  In q (requests_issued tr) ->
  header_value (lit "PAYMENT-SIGNATURE") (req_headers q) = Some v ->
  v = dummy_tx_hash.
Proof.
  intros Hq Hv.
  assert (Hretry : header_value (lit "PAYMENT-SIGNATURE")
                     (req_headers retry_request) = Some dummy_tx_hash)
    by (vm_compute; reflexivity).
  destruct (requests_issued_cases tr) as [Hc|Hc]; rewrite Hc in Hq;
    cbn [In] in Hq.
  - destruct Hq as [<-|[]]. discriminate Hv.
  - destruct Hq as [<-|[<-|[]]]; [discriminate Hv|]. congruence.
Qed.

(** C9: whatever two networks (and so whatever two challenges) the script
    runs against, every [PAYMENT-SIGNATURE] header it sends carries the same
    value, the constant [0x] followed by 64 [b]s. *)
Theorem C9_fixed_payment_proof (tr1 tr2 : Transport) (q1 q2 : Request)
    (v1 v2 : str) :
  In q1 (requests_issued tr1) ->
  In q2 (requests_issued tr2) ->
  header_value (lit "PAYMENT-SIGNATURE") (req_headers q1) = Some v1 ->
  header_value (lit "PAYMENT-SIGNATURE") (req_headers q2) = Some v2 ->
  v1 = v2 /\
  v1 = lit "0xbbbbbbbbbbbbbbbbbbbbbbbbbbbbbbbbbbbbbbbbbbbbbbbbbbbbbbbbbbbbbbbb" /\
  List.length v1 = 66%nat.
Proof.
  intros Hq1 Hq2 Hv1 Hv2.
  rewrite (payment_signature_of_request tr1 q1 v1 Hq1 Hv1).
  rewrite (payment_signature_of_request tr2 q2 v2 Hq2 Hv2).
  split; [reflexivity|]. split; [apply dummy_tx_hash_value|].
  vm_compute. reflexivity.
Qed.

Lemma C9_witness :
  dummy_tx_hash = dummy_tx_hash /\
  dummy_tx_hash =
    lit "0xbbbbbbbbbbbbbbbbbbbbbbbbbbbbbbbbbbbbbbbbbbbbbbbbbbbbbbbbbbbbbbbb" /\
  List.length dummy_tx_hash = 66%nat.
Proof.
  apply (C9_fixed_payment_proof
           (serve [inr r402; inr r200_nested])
           (serve [inr r402_other; inr r500])
           retry_request retry_request).
  - vm_compute. right. left. reflexivity.
  - vm_compute. right. left. reflexivity.
  - vm_compute. reflexivity.
  - vm_compute. reflexivity.
Defined.

(** ** Connection failure on the retry *)

Lemma run_retry_refused (tr : Transport) (q : Request) (e : exn) :
  nth_error (requests_issued tr) 1 = Some q ->
  tr 1%nat q = inl e ->
  isinstance_ConnectionError e = true ->
  exists a p,
    run tr =
      (inr tt,
       mkWorld [initial_request; retry_request]
         (banner ++ challenge_report a p ++ [report_ConnectionError])).
Proof.
  intros Hq He Hc.
  destruct (retry_issued tr q Hq) as (-> & r & a & p & H0 & Hs & Hch).
  exists a, p.
  rewrite (run_after_challenge tr r a p H0 Hs Hch), He.
  cbn [after_retry]. cbv zeta. now rewrite Hc.
Qed.

(** C10: when the retry POST is issued after a 402 and raises a connection
    error, the handler of line 63 catches it: the script returns normally,
    its last line is the connection error report, and no execution failure
    is reported. *)
Theorem C10_retry_connection_failure (tr : Transport) (r1 : Response)
    (q : Request) (e : exn) :
  tr 0%nat initial_request = inr r1 ->
  status_code r1 = 402 ->
  nth_error (requests_issued tr) 1 = Some q ->
  tr 1%nat q = inl e ->
  isinstance_ConnectionError e = true ->
  outcome tr = inr tt /\
  last (printed tr) [] = report_ConnectionError /\
  (forall diagnostic, ~ In (report_ExecutionError diagnostic) (printed tr)).
Proof.
  intros _ _ Hq He Hc.
  destruct (run_retry_refused tr q e Hq He Hc) as (a & p & Hrun).
  unfold outcome, printed. rewrite Hrun. cbn [fst snd stdout].
  split; [reflexivity|]. split; [reflexivity|].
  intros t Hin. vm_compute in Hin. intuition discriminate.
Qed.

Lemma C10_witness :
  let tr := serve [inr r402; inl ConnectTimeout] in
  outcome tr = inr tt /\
  last (printed tr) [] = report_ConnectionError /\
  (forall diagnostic, ~ In (report_ExecutionError diagnostic) (printed tr)).
Proof.
  cbv zeta.
  apply (C10_retry_connection_failure (serve [inr r402; inl ConnectTimeout])
           r402 retry_request ConnectTimeout);
    vm_compute; reflexivity.
Defined.

(** ** What the top-level handler catches *)

(** C3, as stated, fails: a 200 answer whose body is not JSON makes
    [response.json()] raise [JSONDecodeError], and a read timeout of the
    transport raises [ReadTimeout]; neither is a [ConnectionError], so both
    leave [main] uncaught. *)
Lemma C3_counterexample :
  outcome (serve [inr r200_html]) = inl JSONDecodeError /\
  outcome (serve [inl ReadTimeout]) = inl ReadTimeout.
Proof.
  unfold outcome.
  rewrite (run_first_response _ r200_html eq_refl).
  rewrite (run_first_raises _ ReadTimeout eq_refl).
  split; reflexivity.
Qed.

Lemma first_request (tr : Transport) (q : Request) :
  nth_error (requests_issued tr) 0 = Some q -> q = initial_request.
Proof.
  destruct (requests_issued_cases tr) as [-> | ->]; cbn; congruence.
Qed.

Lemma at_most_two_requests (tr : Transport) (n : nat) :
  nth_error (requests_issued tr) (S (S n)) = None.
Proof.
  destruct (requests_issued_cases tr) as [-> | ->]; cbn; now destruct n.
Qed.

Lemma uncaught_not_ConnectionError (tr : Transport) (e : exn) :
  outcome tr = inl e -> isinstance_ConnectionError e = false.
Proof.
  unfold outcome.
  destruct (tr 0%nat initial_request) as [e0|r] eqn:H0.
  - rewrite (run_first_raises tr e0 H0).
    destruct (isinstance_ConnectionError e0) eqn:He0; cbn [fst]; congruence.
  - rewrite (run_first_response tr r H0).
    destruct (status_code r =? 402).
    + destruct (challenge r) as [[e' ls]|[a p]] eqn:Hc.
      * cbn [fst]. intros [= <-].
        exact (challenge_not_ConnectionError r e' ls Hc).
      * cbv zeta.
        destruct (after_retry (tr 1%nat retry_request)) as [[e'|u] ls];
          [destruct (isinstance_ConnectionError e') eqn:He'|];
          cbn [fst]; congruence.
    + destruct (ok r); [destruct (body_json r)|]; cbn [fst];
        try discriminate.
      now intros [= <-].
Qed.

(** The handler of line 63 around the [try] block. *)
Lemma main_handler (tr : Transport) :
  run tr =
    match try_body tr world_before_try with
    | (inl e, w') =>
        if isinstance_ConnectionError e
        then (inr tt,
              mkWorld (sent w') (stdout w' ++ [report_ConnectionError]))
        else (inl e, w')
    | (inr u, w') => (inr u, w')
    end.
Proof.
  unfold run, main, world0. do 3 step. unfold try_except.
  change (mkWorld [] _) with world_before_try.
  destruct (try_body tr world_before_try) as [[e|u] w'];
    [destruct (isinstance_ConnectionError e)|]; reflexivity.
Qed.

(** How the [try] block ends, by the answers of the network. *)
Lemma try_body_ends (tr : Transport) :
  fst (try_body tr world_before_try) =
    match tr 0%nat initial_request with
    | inl e => inl e
    | inr r =>
        if status_code r =? 402 then
          match challenge r with
          | inl (e, _) => inl e
          | inr _ => fst (after_retry (tr 1%nat retry_request))
          end
        else if ok r then
          match body_json r with
          | Some _ => inr tt
          | None => inl JSONDecodeError
          end
        else inr tt
    end.
Proof.
  unfold try_body, world_before_try. do 2 step. fold initial_request.
  destruct (tr 0%nat initial_request) as [e|r]; [reflexivity|].
  destruct (status_code r =? 402).
  - rewrite handle_402_eq. cbn [sent List.length].
    destruct (challenge r) as [[e ls]|[a p]]; [reflexivity|].
    destruct (after_retry (tr 1%nat retry_request)); reflexivity.
  - destruct (ok r); [|reflexivity].
    step. destruct (body_json r); reflexivity.
Qed.

Lemma post_raises_in_try (tr : Transport) (n : nat) (q : Request) (e : exn) :
  nth_error (requests_issued tr) n = Some q ->
  tr n q = inl e ->
  raised_in_try tr = Some e.
Proof.
  unfold raised_in_try. rewrite try_body_ends.
  destruct n as [|[|n]]; intros Hq He.
  - apply first_request in Hq. subst q. now rewrite He.
  - destruct (retry_issued tr q Hq) as (-> & r & a & p & H0 & Hs & Hc).
    rewrite H0, Hs, Hc, He. reflexivity.
  - rewrite at_most_two_requests in Hq. discriminate.
Qed.

Lemma body_not_json_raises_in_try (tr : Transport) (n : nat) (q : Request)
    (r : Response) :
  nth_error (requests_issued tr) n = Some q ->
  tr n q = inr r ->
  (n = 0%nat /\ status_code r = 402) \/ ok r = true ->
  body_json r = None ->
  raised_in_try tr = Some JSONDecodeError.
Proof.
  unfold raised_in_try. rewrite try_body_ends.
  destruct n as [|[|n]]; intros Hq Hr Hparsed Hb.
  - apply first_request in Hq. subst q. rewrite Hr.
    unfold challenge. rewrite Hb.
    destruct (status_code r =? 402) eqn:Hs; [reflexivity|].
    destruct Hparsed as [[_ H402]|Hok].
    + rewrite H402 in Hs. discriminate.
    + now rewrite Hok.
  - destruct (retry_issued tr q Hq) as (-> & r1 & a & p & H0 & Hs & Hc).
    rewrite H0, Hs, Hc, Hr.
    destruct Hparsed as [[Hn _]|Hok]; [discriminate|].
    unfold after_retry. now rewrite Hok, Hb.
  - rewrite at_most_two_requests in Hq. discriminate.
Qed.

Lemma raised_not_caught (tr : Transport) (e : exn) :
  raised_in_try tr = Some e ->
  isinstance_ConnectionError e = false ->
  outcome tr = inl e.
Proof.
  unfold raised_in_try, outcome. rewrite main_handler.
  destruct (try_body tr world_before_try) as [[e'|u] w']; cbn [fst];
    [|discriminate].
  intros [= ->] He. now rewrite He.
Qed.

(** C3, amended: an error raised inside the [try] block is caught at the
    top level exactly when it is a connection error.  A connection error
    raised by either POST is caught and reported by printing, after which
    the script returns normally, and no connection error leaves [main].  An
    error of any other class raised in the block is not caught: it leaves
    [main]; so do, in particular, any other exception of either POST and the
    [JSONDecodeError] of a parsed response body that is not JSON. *)
Theorem C3_connection_errors_caught (tr : Transport) :
  (forall e, outcome tr = inl e -> isinstance_ConnectionError e = false) /\
  (forall n q e,
     nth_error (requests_issued tr) n = Some q ->
     tr n q = inl e ->
     isinstance_ConnectionError e = true ->
     outcome tr = inr tt /\ last (printed tr) [] = report_ConnectionError) /\
  (forall e,
     raised_in_try tr = Some e ->
     isinstance_ConnectionError e = false ->
     outcome tr = inl e) /\
  (forall n q e,
     nth_error (requests_issued tr) n = Some q ->
     tr n q = inl e ->
     isinstance_ConnectionError e = false ->
     outcome tr = inl e) /\
  (forall n q r,
     nth_error (requests_issued tr) n = Some q ->
     tr n q = inr r ->
     (n = 0%nat /\ status_code r = 402) \/ ok r = true ->
     body_json r = None ->
     outcome tr = inl JSONDecodeError).
Proof.
  split; [apply uncaught_not_ConnectionError|].
  split.
  { intros [|[|n]] q e Hq He Hc.
    - apply first_request in Hq. subst q.
      unfold outcome, printed. rewrite (run_first_raises tr e He), Hc.
      split; reflexivity.
    - destruct (run_retry_refused tr q e Hq He Hc) as (a & p & Hrun).
      unfold outcome, printed. rewrite Hrun. split; reflexivity.
    - rewrite at_most_two_requests in Hq. discriminate. }
  split; [apply raised_not_caught|].
  split.
  - intros n q e Hq He Hc.
    exact (raised_not_caught tr e (post_raises_in_try tr n q e Hq He) Hc).
  - intros n q r Hq Hr Hparsed Hb.
    exact (raised_not_caught tr JSONDecodeError
             (body_not_json_raises_in_try tr n q r Hq Hr Hparsed Hb) eq_refl).
Qed.

Lemma C3_witness :
  isinstance_ConnectionError TypeError = false /\
  (outcome (serve [inr r402; inl SSLError]) = inr tt /\
   last (printed (serve [inr r402; inl SSLError])) [] =
     report_ConnectionError) /\
  outcome (serve [inr r402; inr r200_array]) = inl AttributeError /\
  outcome (serve [inr r402; inl ReadTimeout]) = inl ReadTimeout /\
  outcome (serve [inr r402; inr r200_html]) = inl JSONDecodeError.
Proof.
  split; [|split; [|split; [|split]]].
  - apply (proj1 (C3_connection_errors_caught
                    (serve [inr r402_no_recipient])) TypeError).
    vm_compute. reflexivity.
  - apply (proj1 (proj2 (C3_connection_errors_caught
                           (serve [inr r402; inl SSLError])))
             1%nat retry_request SSLError);
      vm_compute; reflexivity.
  - apply (proj1 (proj2 (proj2 (C3_connection_errors_caught
                                  (serve [inr r402; inr r200_array]))))
             AttributeError);
      vm_compute; reflexivity.
  - apply (proj1 (proj2 (proj2 (proj2 (C3_connection_errors_caught
                                         (serve [inr r402; inl ReadTimeout])))))
             1%nat retry_request ReadTimeout);
      vm_compute; reflexivity.
  - apply (proj2 (proj2 (proj2 (proj2 (C3_connection_errors_caught
                                         (serve [inr r402; inr r200_html])))))
             1%nat retry_request r200_html).
    + vm_compute. reflexivity.
    + vm_compute. reflexivity.
    + right. vm_compute. reflexivity.
    + vm_compute. reflexivity.
Defined.

(* ------------------------------------------------------------------ *)
(** * Further properties of the run *)
(* ------------------------------------------------------------------ *)

(** ** The requests *)

(** X1: against every network the script issues the initial POST and at
    most one retry, and every POST it issues goes to the gateway URL with
    the one task payload. *)
Theorem X1_requests_bounded (tr : Transport) :
  (requests_issued tr = [initial_request] \/
   requests_issued tr = [initial_request; retry_request]) /\
  Forall (fun q => req_url q = GATEWAY_URL /\ req_json q = payload)
    (requests_issued tr).
Proof.
  split; [apply requests_issued_cases|].
  destruct (requests_issued_cases tr) as [-> | ->];
    repeat constructor.
Qed.

(** X2: the retry is issued exactly when the first answer is a 402 whose
    body is a JSON object with a string or list recipient. *)
Theorem X2_retry_iff_challenge (tr : Transport) :
  requests_issued tr = [initial_request; retry_request] <->
  exists r,
    tr 0%nat initial_request = inr r /\ status_code r = 402 /\
    challenge_well_formed r = true.
Proof.
  split.
  - intros Hreq.
    assert (Hq : nth_error (requests_issued tr) 1 = Some retry_request)
      by now rewrite Hreq.
    destruct (retry_issued tr retry_request Hq) as (_ & r & a & p & H0 & Hs & Hc).
    exists r. repeat split; trivial.
    exact (challenge_reaches_retry_well_formed r a p Hc).
  - intros (r & H0 & Hs & Hw).
    destruct (challenge_well_formed_reaches_retry r Hw) as (a & p & Hc).
    unfold requests_issued. rewrite (run_after_challenge tr r a p H0 Hs Hc).
    cbv zeta.
    destruct (after_retry (tr 1%nat retry_request)) as [[e|u] ls];
      [destruct (isinstance_ConnectionError e)|]; reflexivity.
Qed.

Lemma X2_witness :
  requests_issued (serve [inr r402; inr r500]) =
    [initial_request; retry_request].
Proof.
  apply (proj2 (X2_retry_iff_challenge (serve [inr r402; inr r500]))).
  exists r402. repeat split.
Defined.

(** X3: the run consults the network at two points only, the answer to the
    initial request and the answer to the retry: two networks that agree
    there give the same run. *)
Theorem X3_run_depends_on_two_answers (tr1 tr2 : Transport) :
  tr1 0%nat initial_request = tr2 0%nat initial_request ->
  tr1 1%nat retry_request = tr2 1%nat retry_request ->
  run tr1 = run tr2.
Proof.
  intros H0 H1.
  destruct (tr1 0%nat initial_request) as [e|r] eqn:E1; symmetry in H0.
  - now rewrite (run_first_raises tr1 e E1), (run_first_raises tr2 e H0).
  - rewrite (run_first_response tr1 r E1), (run_first_response tr2 r H0).
    now rewrite H1.
Qed.

Lemma X3_witness :
  run (serve [inr r402; inr r500; inr r200_nested]) =
  run (serve [inr r402; inr r500]).
Proof.
  apply X3_run_depends_on_two_answers; reflexivity.
Defined.

(** ** Malformed challenges *)

(** X4: a 402 whose body is not JSON ends the run at line 30, before
    anything of the branch is printed: [JSONDecodeError] leaves [main] after
    the one POST and the banner. *)
Theorem X4_challenge_not_json (tr : Transport) (r : Response) :
  tr 0%nat initial_request = inr r ->
  status_code r = 402 ->
  body_json r = None ->
  run tr = (inl JSONDecodeError, mkWorld [initial_request] banner).
Proof.
  intros H0 Hs Hb. rewrite (run_first_response tr r H0), Hs.
  unfold challenge. rewrite Hb. cbn [Z.eqb Pos.eqb].
  now rewrite app_nil_r.
Qed.

Lemma X4_witness :
  run (serve [inr r402_text]) =
    (inl JSONDecodeError, mkWorld [initial_request] banner).
Proof.
  apply (X4_challenge_not_json (serve [inr r402_text]) r402_text);
    reflexivity.
Defined.

(** X5: a 402 whose JSON body is not an object (an array, a string, a
    number, null) has no [.get]: [AttributeError] leaves [main] after the
    "402 PAYMENT REQUIRED" line, and no retry is issued. *)
Theorem X5_challenge_not_object (tr : Transport) (r : Response) (v : pyval) :
  tr 0%nat initial_request = inr r ->
  status_code r = 402 ->
  body_json r = Some v ->
  (forall d, v <> PDict d) ->
  run tr =
    (inl AttributeError,
     mkWorld [initial_request]
       (banner ++ [[Text (nl ++ lit "⚠️  402 PAYMENT REQUIRED")]])).
Proof.
  intros H0 Hs Hb Hv. rewrite (run_first_response tr r H0), Hs.
  unfold challenge. rewrite Hb.
  destruct v; try reflexivity. now destruct (Hv d).
Qed.

Lemma X5_witness :
  run (serve [inr r402_array]) =
    (inl AttributeError,
     mkWorld [initial_request]
       (banner ++ [[Text (nl ++ lit "⚠️  402 PAYMENT REQUIRED")]])).
Proof.
  apply (X5_challenge_not_object (serve [inr r402_array]) r402_array
           (PList [PStr (lit "pay")])); try reflexivity.
  intros d. discriminate.
Defined.

(** X6: on a 402 object whose recipient is absent, null, a boolean or a
    number, the slice of line 33 raises [TypeError]: it leaves [main] after
    the price line, and no retry is issued. *)
Theorem X6_recipient_not_sliceable (tr : Transport) (r : Response)
    (d : list (str * pyval)) (recipient : pyval) :
  tr 0%nat initial_request = inr r ->
  status_code r = 402 ->
  body_json r = Some (PDict d) ->
  py_get (PDict d) (lit "recipient") PNone = inr recipient ->
  sliceable recipient = false ->
  (forall d', recipient <> PDict d') ->
  run tr =
    (inl TypeError,
     mkWorld [initial_request]
       (banner ++
        [ [Text (nl ++ lit "⚠️  402 PAYMENT REQUIRED")];
          [Text (lit "💰 Price: "); py_str (displayed_amount d);
           Text (lit " Octas")] ])).
Proof.
  intros H0 Hs Hb Hr Hn Hd. rewrite (run_first_response tr r H0), Hs.
  unfold challenge. rewrite Hb, Hr.
  unfold py_get, displayed_amount.
  destruct (dict_lookup (lit "amount") d);
    destruct recipient as [| | | | | |d']; try discriminate Hn;
    try reflexivity; now destruct (Hd d').
Qed.

Lemma X6_witness :
  run (serve [inr r402_null_recipient; inr r200_nested]) =
    (inl TypeError,
     mkWorld [initial_request]
       (banner ++
        [ [Text (nl ++ lit "⚠️  402 PAYMENT REQUIRED")];
          [Text (lit "💰 Price: "); Repr (PInt 100); Text (lit " Octas")] ])).
Proof.
  apply (X6_recipient_not_sliceable
           (serve [inr r402_null_recipient; inr r200_nested])
           r402_null_recipient
           [ (lit "amount", PInt 100); (lit "recipient", PNone) ] PNone);
    try reflexivity.
  intros d'. discriminate.
Defined.

(** X7: a 402 object without an amount is tolerated: the price line shows
    [None] and, the recipient being a string or a list, the retry is
    issued. *)
Theorem X7_missing_amount (tr : Transport) (r : Response)
    (d : list (str * pyval)) (recipient : pyval) :
  tr 0%nat initial_request = inr r ->
  status_code r = 402 ->
  body_json r = Some (PDict d) ->
  dict_lookup (lit "amount") d = None ->
  dict_lookup (lit "recipient") d = Some recipient ->
  sliceable recipient = true ->
  requests_issued tr = [initial_request; retry_request] /\
  nth_error (printed tr) 5 =
    Some [Text (lit "💰 Price: "); Repr PNone; Text (lit " Octas")].
Proof.
  intros H0 Hs Hb Ha Hr Hsl.
  assert (Hp : exists p, py_slice_to recipient 10 = inr p)
    by (destruct recipient; try discriminate Hsl; cbn; eauto).
  destruct Hp as [p Hp].
  pose proof (missing_amount_tolerated r d recipient p Hb Ha Hr Hp) as Hc.
  unfold requests_issued, printed.
  rewrite (run_after_challenge tr r PNone p H0 Hs Hc). cbv zeta.
  destruct (after_retry (tr 1%nat retry_request)) as [[e|u] ls];
    [destruct (isinstance_ConnectionError e)|]; split; reflexivity.
Qed.

Lemma X7_witness :
  requests_issued (serve [inr r402_no_amount; inr r200_nested]) =
    [initial_request; retry_request] /\
  nth_error (printed (serve [inr r402_no_amount; inr r200_nested])) 5 =
    Some [Text (lit "💰 Price: "); Repr PNone; Text (lit " Octas")].
Proof.
  apply (X7_missing_amount (serve [inr r402_no_amount; inr r200_nested])
           r402_no_amount
           [ (lit "recipient", PStr (lit "0xABCDEF1234567890")) ]
           (PStr (lit "0xABCDEF1234567890")));
    reflexivity.
Defined.



(** ** The answer to the retry *)

Lemma py_get_raises (obj : pyval) (key : str) (default : pyval) (e : exn) :
  py_get obj key default = inl e -> e = AttributeError.
Proof.
  unfold py_get. destruct obj; try congruence.
  destruct (dict_lookup key d); discriminate.
Qed.

Lemma after_retry_malformed (r2 : Response) (v : pyval) :
  ok r2 = true ->
  body_json r2 = Some v ->
  result_well_formed v = false ->
  after_retry (inr r2) = (inl AttributeError, success_opening).
Proof.
  intros Hok Hb Hw. unfold after_retry. rewrite Hok, Hb.
  destruct v; try reflexivity.
  unfold result_well_formed in Hw. unfold py_get at 1.
  destruct (dict_lookup (lit "result") d) as [[]|];
    try discriminate Hw; reflexivity.
Qed.

Lemma not_error_status_ok (r : Response) :
  status_code r < 400 \/ 600 <= status_code r -> ok r = true.
Proof.
  unfold ok. intros H. apply negb_true_iff, andb_false_iff.
  destruct H; [left; apply Z.leb_gt | right; apply Z.ltb_ge]; lia.
Qed.

(** X9: when the retry is answered with a status outside 400..599 and a
    body that is not JSON, [JSONDecodeError] leaves [main] after the two
    POSTs, and nothing is printed after the challenge: neither a success nor
    a failure is reported. *)
Theorem X9_retry_body_not_json (tr : Transport) (r1 r2 : Response) :
  tr 0%nat initial_request = inr r1 ->
  status_code r1 = 402 ->
  challenge_well_formed r1 = true ->
  tr 1%nat retry_request = inr r2 ->
  ok r2 = true ->
  body_json r2 = None ->
  outcome tr = inl JSONDecodeError /\
  requests_issued tr = [initial_request; retry_request] /\
  exists a p, printed tr = banner ++ challenge_report a p.
Proof.
  intros H1 Hs Hc H2 Hok Hb.
  destruct (challenge_well_formed_reaches_retry r1 Hc) as (a & p & Hch).
  unfold outcome, requests_issued, printed.
  rewrite (run_after_challenge tr r1 a p H1 Hs Hch), H2.
  unfold after_retry. rewrite Hok, Hb. cbv zeta.
  cbn [isinstance_ConnectionError fst snd sent stdout].
  repeat split. exists a, p. now rewrite app_nil_r.
Qed.

Lemma X9_witness :
  let tr := serve [inr r402; inr r200_html] in
  outcome tr = inl JSONDecodeError /\
  requests_issued tr = [initial_request; retry_request] /\
  exists a p, printed tr = banner ++ challenge_report a p.
Proof.
  cbv zeta.
  apply (X9_retry_body_not_json (serve [inr r402; inr r200_html])
           r402 r200_html);
    reflexivity.
Defined.

(** X10: when the retry is answered with a status outside 400..599 and a
    JSON body that is not an object, or whose [result] is not an object, the
    script first prints the success announcement of lines 50-52 and then
    [AttributeError] leaves [main]: no agent output is printed. *)
Theorem X10_retry_body_malformed (tr : Transport) (r1 r2 : Response)
    (v : pyval) :
  tr 0%nat initial_request = inr r1 ->
  status_code r1 = 402 ->
  challenge_well_formed r1 = true ->
  tr 1%nat retry_request = inr r2 ->
  ok r2 = true ->
  body_json r2 = Some v ->
  result_well_formed v = false ->
  outcome tr = inl AttributeError /\
  exists a p, printed tr = banner ++ challenge_report a p ++ success_opening.
Proof.
  intros H1 Hs Hc H2 Hok Hb Hw.
  destruct (challenge_well_formed_reaches_retry r1 Hc) as (a & p & Hch).
  unfold outcome, printed.
  rewrite (run_after_challenge tr r1 a p H1 Hs Hch), H2.
  rewrite (after_retry_malformed r2 v Hok Hb Hw). cbv zeta.
  cbn [isinstance_ConnectionError fst snd stdout].
  split; [reflexivity|]. exists a, p. reflexivity.
Qed.

Lemma X10_witness :
  let tr := serve [inr r402; inr r200_array] in
  outcome tr = inl AttributeError /\
  exists a p, printed tr = banner ++ challenge_report a p ++ success_opening.
Proof.
  cbv zeta.
  apply (X10_retry_body_malformed (serve [inr r402; inr r200_array])
           r402 r200_array (PList [PInt 1; PInt 2]));
    reflexivity.
Defined.

(** X11: an initial answer with any status below 400 or from 600 up (402
    apart) is taken for a success: its decoded body is printed as it is and
    no second POST is issued. *)
Theorem X11_initial_ok_status (tr : Transport) (r : Response) (v : pyval) :
  tr 0%nat initial_request = inr r ->
  status_code r < 400 \/ 600 <= status_code r ->
  body_json r = Some v ->
  run tr =
    (inr tt,
     mkWorld [initial_request] (banner ++ [report_AgentResult_direct v])).
Proof.
  intros H0 Hs Hb. rewrite (run_first_response tr r H0).
  replace (status_code r =? 402) with false
    by (symmetry; apply Z.eqb_neq; lia).
  now rewrite (not_error_status_ok r Hs), Hb.
Qed.

Lemma X11_witness :
  run (serve [inr r300]) =
    (inr tt,
     mkWorld [initial_request]
       (banner ++
        [report_AgentResult_direct (PDict [ (lit "choices", PList []) ])])).
Proof.
  apply (X11_initial_ok_status (serve [inr r300]) r300).
  - reflexivity.
  - left. cbn. lia.
  - reflexivity.
Defined.

(** X12: a retry answered with any status below 400 or from 600 up, and a
    well-formed body, is taken for a success: the agent output printed is
    [result.response] when present, else the whole body. *)
Theorem X12_retry_ok_status (tr : Transport) (r1 r2 : Response)
    (d : list (str * pyval)) :
  tr 0%nat initial_request = inr r1 ->
  status_code r1 = 402 ->
  challenge_well_formed r1 = true ->
  tr 1%nat retry_request = inr r2 ->
  status_code r2 < 400 \/ 600 <= status_code r2 ->
  body_json r2 = Some (PDict d) ->
  result_well_formed (PDict d) = true ->
  outcome tr = inr tt /\
  exists a p,
    printed tr =
      banner ++ challenge_report a p ++ report_AgentResult (nested_result d).
Proof.
  intros H1 Hs Hc H2 Hok Hb Hw.
  destruct (challenge_well_formed_reaches_retry r1 Hc) as (a & p & Hch).
  unfold outcome, printed.
  rewrite (run_after_challenge tr r1 a p H1 Hs Hch), H2.
  rewrite (after_retry_well_formed r2 d (not_error_status_ok r2 Hok) Hb Hw).
  cbv zeta. cbn [fst snd stdout]. split; [reflexivity|].
  exists a, p. reflexivity.
Qed.

Lemma X12_witness :
  let tr := serve [inr r402; inr r300] in
  outcome tr = inr tt /\
  exists a p,
    printed tr =
      banner ++ challenge_report a p ++
      report_AgentResult (PDict [ (lit "choices", PList []) ]).
Proof.
  cbv zeta.
  apply (X12_retry_ok_status (serve [inr r402; inr r300]) r402 r300
           [ (lit "choices", PList []) ]); try reflexivity.
  left. cbn. lia.
Defined.

(** ** Transport failures that are not connection errors *)

(** X13: an exception of the first POST that is not a connection error (a
    read timeout, too many redirects, ...) is not handled: it leaves [main]
    after the banner, and nothing is reported. *)
Theorem X13_first_post_other_failure (tr : Transport) (e : exn) :
  tr 0%nat initial_request = inl e ->
  isinstance_ConnectionError e = false ->
  run tr = (inl e, mkWorld [initial_request] banner).
Proof.
  intros H He. now rewrite (run_first_raises tr e H), He.
Qed.

Lemma X13_witness :
  run (serve [inl TooManyRedirects]) =
    (inl TooManyRedirects, mkWorld [initial_request] banner).
Proof.
  apply (X13_first_post_other_failure (serve [inl TooManyRedirects])
           TooManyRedirects);
    reflexivity.
Defined.

(** X14: an exception of the retry POST that is not a connection error
    leaves [main] as well, after the two POSTs and the lines of the
    challenge. *)
Theorem X14_retry_other_failure (tr : Transport) (r1 : Response) (e : exn) :
  tr 0%nat initial_request = inr r1 ->
  status_code r1 = 402 ->
  challenge_well_formed r1 = true ->
  tr 1%nat retry_request = inl e ->
  isinstance_ConnectionError e = false ->
  outcome tr = inl e /\
  requests_issued tr = [initial_request; retry_request] /\
  exists a p, printed tr = banner ++ challenge_report a p.
Proof.
  intros H1 Hs Hc H2 He.
  destruct (challenge_well_formed_reaches_retry r1 Hc) as (a & p & Hch).
  unfold outcome, requests_issued, printed.
  rewrite (run_after_challenge tr r1 a p H1 Hs Hch), H2.
  cbn [after_retry]. cbv zeta. rewrite He. cbn [fst snd sent stdout].
  repeat split. exists a, p. now rewrite app_nil_r.
Qed.

Lemma X14_witness :
  let tr := serve [inr r402; inl ReadTimeout] in
  outcome tr = inl ReadTimeout /\
  requests_issued tr = [initial_request; retry_request] /\
  exists a p, printed tr = banner ++ challenge_report a p.
Proof.
  cbv zeta.
  apply (X14_retry_other_failure (serve [inr r402; inl ReadTimeout])
           r402 ReadTimeout);
    reflexivity.
Defined.

(** ** Terminal states *)

Lemma after_retry_returns (answer : exn + Response) (u : unit)
    (ls : list line) :
  after_retry answer = (inr u, ls) ->
  (exists v, ls = report_AgentResult v) \/
  (exists diagnostic, ls = [report_ExecutionError diagnostic]).
Proof.
  unfold after_retry. destruct answer as [e|r2]; [discriminate|].
  destruct (ok r2).
  - destruct (body_json r2) as [res|]; [|discriminate].
    destruct (py_get res (lit "result") (PDict [])) as [e|inner];
      [discriminate|].
    destruct (py_get inner (lit "response") res) as [e|out];
      [discriminate|].
    intros [= _ <-]. left. now exists out.
  - intros [= _ <-]. right. now exists (text r2).
Qed.

Lemma after_retry_raises_caught (answer : exn + Response) (e : exn)
    (ls : list line) :
  after_retry answer = (inl e, ls) ->
  isinstance_ConnectionError e = true ->
  ls = [].
Proof.
  unfold after_retry. destruct answer as [e0|r2]; [now intros [= _ <-]|].
  destruct (ok r2); [|discriminate].
  destruct (body_json r2) as [res|]; [|intros [= <- _]; discriminate].
  destruct (py_get res (lit "result") (PDict [])) as [e1|inner] eqn:E1.
  - apply py_get_raises in E1. subst e1. intros [= <- _]. discriminate.
  - destruct (py_get inner (lit "response") res) as [e2|out] eqn:E2;
      [|discriminate].
    apply py_get_raises in E2. subst e2. intros [= <- _]. discriminate.
Qed.

(** X15: whenever [main] returns normally it has ended in one of the
    terminal reports, printed last: a connection error, a direct success or
    an unexpected status after the banner, or, after a displayed challenge,
    a connection error, the agent output or an execution failure. *)
Theorem X15_terminal_reports (tr : Transport) :
  outcome tr = inr tt ->
  printed tr = banner ++ [report_ConnectionError] \/
  (exists v, printed tr = banner ++ [report_AgentResult_direct v]) \/
  (exists status, printed tr = banner ++ [report_UnexpectedStatusError status]) \/
  (exists a p,
     printed tr = banner ++ challenge_report a p ++ [report_ConnectionError]) \/
  (exists a p v,
     printed tr = banner ++ challenge_report a p ++ report_AgentResult v) \/
  (exists a p diagnostic,
     printed tr =
       banner ++ challenge_report a p ++ [report_ExecutionError diagnostic]).
Proof.
  unfold outcome, printed.
  destruct (tr 0%nat initial_request) as [e|r] eqn:H0.
  - rewrite (run_first_raises tr e H0).
    destruct (isinstance_ConnectionError e); [|discriminate].
    intros _. now left.
  - rewrite (run_first_response tr r H0).
    destruct (status_code r =? 402).
    + destruct (challenge r) as [[e ls]|[a p]]; [discriminate|].
      cbv zeta.
      destruct (after_retry (tr 1%nat retry_request)) as [[e|u] ls] eqn:Ha.
      * destruct (isinstance_ConnectionError e) eqn:He; [|discriminate].
        intros _. rewrite (after_retry_raises_caught _ e ls Ha He).
        do 3 right. left. now exists a, p.
      * intros _. cbn [snd stdout].
        destruct (after_retry_returns _ u ls Ha) as [[v ->]|[t ->]].
        -- do 4 right. left. now exists a, p, v.
        -- do 5 right. now exists a, p, t.
    + destruct (ok r).
      * destruct (body_json r) as [v|]; [|discriminate].
        intros _. right. left. now exists v.
      * intros _. do 2 right. left. now exists (status_code r).
Qed.

Lemma X15_witness :
  let tr := serve [inr r402; inr r402_again] in
  printed tr = banner ++ [report_ConnectionError] \/
  (exists v, printed tr = banner ++ [report_AgentResult_direct v]) \/
  (exists status, printed tr = banner ++ [report_UnexpectedStatusError status]) \/
  (exists a p,
     printed tr = banner ++ challenge_report a p ++ [report_ConnectionError]) \/
  (exists a p v,
     printed tr = banner ++ challenge_report a p ++ report_AgentResult v) \/
  (exists a p diagnostic,
     printed tr =
       banner ++ challenge_report a p ++ [report_ExecutionError diagnostic]).
Proof.
  cbv zeta.
  apply (X15_terminal_reports (serve [inr r402; inr r402_again])).
  vm_compute. reflexivity.
Defined.
